(** * The constant operators of the [Op] contract (op.go)

    op.go declares the [Op] interface of the computation graph and its two
    zero-input leaf operators, [constantScalar] and [constantTensor].  This
    development embeds both operators, method by method, together with the
    pieces of the Go runtime they call (slices, the [error] interface,
    [hash.Hash], [hash/fnv]'s 32-bit FNV-1a digest, [fmt.Fprintf] into a
    digest and [encoding/binary]'s write), and proves the properties of the
    specification about them. *)

From Stdlib Require Import ZArith List String Lia.
From Stdlib.Strings Require Import Byte.
From stdpp Require Import base option list gmap.
Import ListNotations.
Local Open Scope Z_scope.

(** ** Go values used by the operators *)

(** A Go slice is either [nil] or an allocated sequence; both may be empty, and
    [len] of the nil slice is 0. *)
Inductive slice (A : Type) : Type :=
| slice_nil
| slice_of (elems : list A).
Arguments slice_nil {A}.
Arguments slice_of {A} elems.

Definition elements {A : Type} (s : slice A) : list A :=
  match s with
  | slice_nil => []
  | slice_of l => l
  end.

Definition len {A : Type} (s : slice A) : Z := Z.of_nat (length (elements s)).

(** [s[i]] for the indices that are in range. *)
Definition at_index {A : Type} (s : slice A) (i : nat) : option A := elements s !! i.

(** Modelled from the spec: the error taxonomy of the operator contract
    (ShapeMismatch, TypeMismatch, ArityMismatch, NonDifferentiable, an
    operator-specific computation error) and the encoding failure of the
    hashing path.  op.go itself only names Go's [error] interface and returns
    its nil value. *)
Inductive Error : Type :=
| ShapeMismatch
| TypeMismatch
| ArityMismatch
| NonDifferentiable
| ComputationError
| EncodingFailure.

(** Go's [error] interface value: [None] is the nil error. *)
Definition error : Type := option Error.

(** The result of running a Go function that may [panic]. *)
Inductive outcome (A : Type) : Type :=
| Returns (a : A)
| Panics.
Arguments Returns {A} a.
Arguments Panics {A}.

#[global] Instance outcome_ret : MRet outcome := fun A a => Returns a.
#[global] Instance outcome_bind : MBind outcome := fun A B k m =>
  match m with
  | Returns a => k a
  | Panics => Panics
  end.
#[global] Instance outcome_fmap : FMap outcome := fun A B f m =>
  match m with
  | Returns a => Returns (f a)
  | Panics => Panics
  end.

(** Modelled from the spec: [types.Shape], the list of dimension sizes of a
    value, and [types.ScalarShape()], the fixed 0-dimensional shape. *)
Definition Shape : Type := list Z.
Definition ScalarShape : Shape := [].
Definition Dims (s : Shape) : Z := Z.of_nat (length s).

(** ** Streaming digests *)

(** [hash.Hash]: a digest absorbs byte sequences; its [Write] never fails. *)
Class Hash (H : Type) : Type := hash_Write : H -> list byte -> H.

(** The laws every streaming digest obeys: absorbing nothing changes nothing,
    and absorbing a concatenation is absorbing the parts in order. *)
Class HashLaws (H : Type) `{HH : Hash H} : Prop := {
  hash_Write_nil : forall h : H, hash_Write h [] = h;
  hash_Write_app : forall (h : H) (a b : list byte),
    hash_Write h (a ++ b) = hash_Write (hash_Write h a) b
}.

(** [fmt.Fprintf(h, ...)]: the formatted text goes to the digest in one write. *)
Definition Fprintf {H : Type} `{HH : Hash H} (h : H) (formatted : list byte) : H :=
  hash_Write h formatted.

(** The bytes of a string literal of the source. *)
Definition text (s : string) : list byte := list_byte_of_string s.

Definition byte_val (b : byte) : Z := Z.of_N (Byte.to_N b).

(** [hash/fnv]: the 32-bit FNV-1a digest. *)
Module fnv.

Definition offset32 : Z := 2166136261.
Definition prime32 : Z := 16777619.

(** [type sum32a uint32] *)
Record sum32a : Type := Sum32a { word : Z }.

Definition New32a : sum32a := Sum32a offset32.

(** One round of the loop of [Write]: [hash ^= sum32a(c); hash *= prime32],
    in 32-bit unsigned arithmetic. *)
Definition round (hash : Z) (c : byte) : Z :=
  (Z.lxor hash (byte_val c) * prime32) mod 2 ^ 32.

Definition Write (s : sum32a) (data : list byte) : sum32a :=
  Sum32a (fold_left round data (word s)).

Definition Sum32 (s : sum32a) : Z := word s.

End fnv.

#[global] Instance fnv_Hash : Hash fnv.sum32a := fnv.Write.


(** A digest that only records what is written into it: the byte sequence an
    operator feeds to any [hash.Hash]. *)
Definition transcript : Type := list byte.
#[global] Instance transcript_Hash : Hash transcript := fun h data => h ++ data.

(** ** The value capability set

    [Scalar], [Tensor], [Type], [Dtype] and [*Node] are declared elsewhere in
    the package; op.go consumes them through the operations below. *)
Class ValueCaps : Type := {
  (** the element-type tag of a scalar, the field [t] of [Scalar] *)
  Dtype : Type;
  (** what a scalar holds, the field [v] of [Scalar] *)
  Payload : Type;
  (** the package's [Type] *)
  GType : Type;
  (** the content a tensor handle designates *)
  TensorData : Type;
  (** a [*Node] of the graph *)
  Node : Type;
  (** [encoding/binary]'s little-endian encoding of a [Dtype]; [None] when the
      type has no fixed-size encoding and [binary.Write] reports an error *)
  Dtype_encode : Dtype -> option (list byte);
  (** [Scalar.Type()] *)
  Payload_Type : Payload -> Dtype -> GType;
  (** the [%v] rendering of a scalar *)
  Payload_format : Payload -> Dtype -> list byte;
  (** the [%v] rendering of a [Type] *)
  GType_format : GType -> list byte;
  (** the type, the shape and the [%v] rendering of a tensor's content *)
  TensorData_Type : TensorData -> GType;
  TensorData_Shape : TensorData -> Shape;
  TensorData_format : TensorData -> list byte
}.

(** [binary.Write(h, binary.LittleEndian, data)] for a [Dtype]: the encoding
    is written to the digest, or nothing is written and an error is returned. *)
Definition binary_Write `{VC : ValueCaps} {H : Type} `{HH : Hash H} (h : H) (data : Dtype)
  : H * error :=
  match Dtype_encode data with
  | Some buf => (hash_Write h buf, None)
  | None => (h, Some EncodingFailure)
  end.

(** Modelled from the spec: a scalar value, which knows its own element type.
    [Scalar] is declared outside op.go; the source reads its field [t] (the
    element type, in [c.v.t]) and renders the whole value with [%v]. *)
Record Scalar `{VC : ValueCaps} : Type := mkScalar {
  Scalar_v : Payload;
  Scalar_t : Dtype
}.
Arguments mkScalar {VC} Scalar_v Scalar_t.

Definition Scalar_Type `{VC : ValueCaps} (s : Scalar) : GType :=
  Payload_Type (Scalar_v s) (Scalar_t s).

Definition Scalar_format `{VC : ValueCaps} (s : Scalar) : list byte :=
  Payload_format (Scalar_v s) (Scalar_t s).

(** Modelled from the spec: a [Tensor] is shared by reference.  The value that
    is passed around is a handle; the content lives in a store of tensors, and
    every copy of the handle designates the same storage. *)
Definition loc : Type := positive.

Record Tensor : Type := mkTensor { Tensor_ptr : loc }.

(** Reading the content through a handle; a handle that designates nothing is
    a nil dereference. *)
Definition Tensor_deref `{VC : ValueCaps} (st : gmap loc TensorData) (t : Tensor)
  : outcome TensorData :=
  match st !! Tensor_ptr t with
  | Some d => Returns d
  | None => Panics
  end.

(** Mutating the content in place through a handle. *)
Definition Tensor_mutate `{VC : ValueCaps} (f : TensorData -> TensorData)
  (st : gmap loc TensorData) (t : Tensor) : gmap loc TensorData :=
  alter f (Tensor_ptr t) st.

Definition Tensor_Type `{VC : ValueCaps} (st : gmap loc TensorData) (t : Tensor)
  : outcome GType :=
  d ← Tensor_deref st t; mret (TensorData_Type d).

Definition Tensor_Shape `{VC : ValueCaps} (st : gmap loc TensorData) (t : Tensor)
  : outcome Shape :=
  d ← Tensor_deref st t; mret (TensorData_Shape d).

Definition Tensor_format `{VC : ValueCaps} (st : gmap loc TensorData) (t : Tensor)
  : outcome (list byte) :=
  d ← Tensor_deref st t; mret (TensorData_format d).

(** Modelled from the spec: the [Value] capability set, whose members are
    [Scalar] and [Tensor]; op.go returns both as a [Value]. *)
Inductive Value `{VC : ValueCaps} : Type :=
| ScalarValue (s : Scalar)
| TensorValue (t : Tensor).
Arguments ScalarValue {VC} s.
Arguments TensorValue {VC} t.

(** [type Nodes []*Node] *)
Definition Nodes `{VC : ValueCaps} : Type := slice Node.

(** ** The constant operators *)

(** [type constantScalar struct { v Scalar }] *)
Record constantScalar `{VC : ValueCaps} : Type := mkConstantScalar {
  constantScalar_v : Scalar
}.
Arguments mkConstantScalar {VC} constantScalar_v.

(** [type constantTensor struct { v Tensor }] *)
Record constantTensor : Type := mkConstantTensor {
  constantTensor_v : Tensor
}.

Module constantScalar.
Section methods.
Context `{VC : ValueCaps}.
Implicit Types c : constantScalar.

Definition Type' c : GType := Scalar_Type (constantScalar_v c).
Definition returnsPtr c : bool := false.
Definition callsExtern c : bool := false.
Definition overwriteInput c : Z := -1.
Definition DiffWRT c (i : Z) : slice bool := slice_nil.
Definition SymDiff c (inputs : Nodes) (outputNode gradNode : Node) : Nodes * error :=
  (slice_nil, None).

Definition inferShape c (hint : GType) (inputs : list Node) : Shape * error :=
  (ScalarShape, None).

Definition Do c (args : list Value) : Value * error :=
  (ScalarValue (constantScalar_v c), None).

Definition WriteHash {H : Type} `{HH : Hash H} c (h : H) : outcome H :=
  let h := Fprintf h (text "const ") in
  let '(h, err) := binary_Write h (Scalar_t (constantScalar_v c)) in
  match err with
  | Some _ => Panics
  | None => Returns (Fprintf h (text "of " ++ Scalar_format (constantScalar_v c)))
  end.

Definition Hashcode c : outcome Z :=
  let h := fnv.New32a in
  h ← WriteHash c h;
  mret (fnv.Sum32 h).

Definition isconstant c : bool := true.
Definition Value c : Value := ScalarValue (constantScalar_v c).

End methods.
End constantScalar.

(** The methods of [constantTensor] that read the wrapped tensor ([Type],
    [inferShape], [WriteHash], [Hashcode]) take the store of tensors. *)
Module constantTensor.
Section methods.
Context `{VC : ValueCaps}.
Implicit Types (c : constantTensor) (st : gmap loc TensorData).

Definition Type' st c : outcome GType := Tensor_Type st (constantTensor_v c).
Definition returnsPtr c : bool := true.
Definition overwriteInput c : Z := -1.
Definition callsExtern c : bool := false.
Definition DiffWRT c (i : Z) : slice bool := slice_nil.
Definition SymDiff c (inputs : Nodes) (outputNode gradNode : Node) : Nodes * error :=
  (slice_nil, None).

Definition inferShape st c (hint : GType) (inputs : list Node) : outcome (Shape * error) :=
  s ← Tensor_Shape st (constantTensor_v c);
  mret (s, None).

Definition Do c (args : list Value) : Value * error :=
  (TensorValue (constantTensor_v c), None).

Definition WriteHash {H : Type} `{HH : Hash H} st c (h : H) : outcome H :=
  ty ← Type' st c;
  let h := Fprintf h (text "const " ++ GType_format ty) in
  repr ← Tensor_format st (constantTensor_v c);
  mret (Fprintf h repr).

Definition Hashcode st c : outcome Z :=
  let h := fnv.New32a in
  h ← WriteHash st c h;
  mret (fnv.Sum32 h).

Definition isconstant c : bool := true.
Definition Value c : Value := TensorValue (constantTensor_v c).

End methods.
End constantTensor.

(** ** Notions the properties are stated with *)

(** The whole-message FNV-1a hash: a fresh digest, one write, the sum. *)
Definition fnv1a32 (data : list byte) : Z :=
  fnv.Sum32 (fnv.Write fnv.New32a data).

(** The specification's reading of [Hashcode]: run [WriteHash] into a fresh
    32-bit FNV-1a digest and finalize the digest. *)
Definition Hashcode_spec (WriteHash : fnv.sum32a -> outcome fnv.sum32a) : outcome Z :=
  fnv.Sum32 <$> WriteHash fnv.New32a.

(** The input indices a [DiffWRT] answer marks as differentiable. *)
Definition marked (marks : slice bool) (i : nat) : bool :=
  default false (at_index marks i).

(** The input indices a [SymDiff] answer holds a gradient for. *)
Definition has_gradient {A : Type} (grads : slice A) (i : nat) : bool :=
  bool_decide (is_Some (at_index grads i)).

(** Differentiability consistency: over all the indices either answer covers,
    an input is marked differentiable exactly when a gradient is returned for
    it. *)
Definition diff_consistent {A : Type} (marks : slice bool) (grads : slice A) : bool :=
  forallb (fun i => Bool.eqb (marked marks i) (has_gradient grads i))
          (seq 0 (Nat.max (length (elements marks)) (length (elements grads)))).

(** The tensor handle a value carries, if it is a tensor. *)
Definition as_Tensor `{VC : ValueCaps} (v : Value) : option Tensor :=
  match v with
  | ScalarValue _ => None
  | TensorValue t => Some t
  end.

(** ** A concrete capability set

    Element types are one-byte tags, scalars and types carry their rendering,
    and a tensor's content is its type, its shape and its rendering. *)
Record plainTensor : Type := mkPlainTensor {
  plain_type : list byte;
  plain_shape : Shape;
  plain_repr : list byte
}.

Definition plainCaps : ValueCaps := {|
  Dtype := byte;
  Payload := list byte;
  GType := list byte;
  TensorData := plainTensor;
  Node := nat;
  Dtype_encode := fun d => Some [d];
  Payload_Type := fun _ d => [d];
  Payload_format := fun p _ => p;
  GType_format := fun ty => ty;
  TensorData_Type := plain_type;
  TensorData_Shape := plain_shape;
  TensorData_format := plain_repr
|}.

(** The scalar constant 5 of element type tag 0. *)
Definition five : @Scalar plainCaps := mkScalar (VC:=plainCaps) (text "5") x00.
Definition const_five : @constantScalar plainCaps := mkConstantScalar five.

Definition six : @Scalar plainCaps := mkScalar (VC:=plainCaps) (text "6") x00.

(** A 2x2 tensor at address 1 of a one-tensor store, and the constant
    wrapping its handle. *)
Definition matrix : plainTensor :=
  mkPlainTensor (text "Matrix float64") [2; 2] (text "[1 2; 3 4]").
Definition one_tensor : gmap loc plainTensor := {[ 1%positive := matrix ]}.
Definition const_matrix : constantTensor := mkConstantTensor (mkTensor 1%positive).

(** A second store, holding the same matrix at another address. *)
Definition other_tensor : gmap loc plainTensor := {[ 2%positive := matrix ]}.
Definition other_matrix : constantTensor := mkConstantTensor (mkTensor 2%positive).

(** ** Further concrete values *)

(** A capability set in which an element type may lack a fixed-size encoding:
    element types are optional one-byte tags. *)
Definition optionalCaps : ValueCaps := {|
  Dtype := option byte;
  Payload := list byte;
  GType := list byte;
  TensorData := plainTensor;
  Node := nat;
  Dtype_encode := fun d => match d with Some b => Some [b] | None => None end;
  Payload_Type := fun p _ => p;
  Payload_format := fun p _ => p;
  GType_format := fun ty => ty;
  TensorData_Type := plain_type;
  TensorData_Shape := plain_shape;
  TensorData_format := plain_repr
|}.

(** A scalar constant whose element type cannot be encoded. *)
Definition untagged_five : @constantScalar optionalCaps :=
  mkConstantScalar (mkScalar (VC:=optionalCaps) (text "5") None).

(** An in-place update: flattening a tensor to a vector keeps the elements
    and changes the type and the shape. *)
Definition flatten (d : plainTensor) : plainTensor :=
  mkPlainTensor (text "Vector float64")
                [fold_right Z.mul 1 (plain_shape d)]
                (plain_repr d).

(** A store with two tensors: the matrix at address 1, a vector at address 2. *)
Definition vector : plainTensor :=
  mkPlainTensor (text "Vector float64") [3] (text "[7 8 9]").
Definition two_tensors : gmap loc plainTensor :=
  <[ 2%positive := vector ]> one_tensor.



(** Two tensors that differ in type, shape and content, and whose type and
    content renderings concatenate to the same bytes. *)
Definition tensor_AB_C : plainTensor := mkPlainTensor (text "AB") [1] (text "C").
Definition tensor_A_BC : plainTensor := mkPlainTensor (text "A") [2] (text "BC").
Definition store_AB_C : gmap loc plainTensor := {[ 1%positive := tensor_AB_C ]}.
Definition store_A_BC : gmap loc plainTensor := {[ 1%positive := tensor_A_BC ]}.

(** ** The digests are lawful *)

Lemma fnv_round_range (hash : Z) (c : byte) : 0 <= fnv.round hash c < 2 ^ 32.
Proof. unfold fnv.round. apply Z.mod_pos_bound. lia. Qed.

Lemma fnv_fold_range (data : list byte) (hash : Z) :
  0 <= hash < 2 ^ 32 -> 0 <= fold_left fnv.round data hash < 2 ^ 32.
Proof.
  revert hash. induction data as [|c data IH]; intros hash Hh; simpl.
  - exact Hh.
  - apply IH, fnv_round_range.
Qed.

Lemma fnv1a32_range (data : list byte) : 0 <= fnv1a32 data < 2 ^ 32.
Proof.
  unfold fnv1a32, fnv.Sum32, fnv.Write, fnv.New32a. simpl.
  apply fnv_fold_range. unfold fnv.offset32. lia.
Qed.

#[global] Instance fnv_HashLaws : HashLaws fnv.sum32a.
Proof.
  split.
  - intros [w]. reflexivity.
  - intros [w] a b. unfold hash_Write, fnv_Hash, fnv.Write. simpl.
    now rewrite fold_left_app.
Qed.

#[global] Instance transcript_HashLaws : HashLaws transcript.
Proof.
  split.
  - intros h. apply app_nil_r.
  - intros h a b. apply app_assoc.
Qed.

Lemma transcript_Write (h : transcript) (data : list byte) :
  hash_Write h data = h ++ data.
Proof. reflexivity. Qed.

(** The FNV-1a test vectors of the empty message, "a" and "abc". *)
Example fnv1a32_vectors :
  fnv1a32 (text "") = 2166136261 /\
  fnv1a32 (text "a") = 3826002220 /\
  fnv1a32 (text "abc") = 440920331.
Proof. repeat split; vm_compute; reflexivity. Qed.

(** ** FNV-1a separates messages that differ in one byte *)












(** ** What [WriteHash] writes *)

Section written_bytes.
Context `{VC : ValueCaps}.
Context {H : Type} `{HL : HashLaws H}.

(** Writing a scalar constant into any lawful digest is writing, in one go,
    the bytes it writes into a recording digest. *)
Lemma constantScalar_WriteHash_transcript (c : constantScalar) (h : H) :
  constantScalar.WriteHash c h
  = hash_Write h <$> constantScalar.WriteHash (H:=transcript) c [].
Proof.
  unfold constantScalar.WriteHash, binary_Write, Fprintf.
  destruct (Dtype_encode (Scalar_t (constantScalar_v c))) as [buf|];
    cbn -[text app hash_Write]; [|reflexivity].
  f_equal. rewrite !transcript_Write, app_nil_l.
  now rewrite !hash_Write_app.
Qed.

Lemma constantTensor_WriteHash_transcript (st : gmap loc TensorData)
  (c : constantTensor) (h : H) :
  constantTensor.WriteHash st c h
  = hash_Write h <$> constantTensor.WriteHash (H:=transcript) st c [].
Proof.
  unfold constantTensor.WriteHash, constantTensor.Type', Tensor_Type,
    Tensor_format, Tensor_deref, Fprintf.
  destruct (st !! Tensor_ptr (constantTensor_v c)) as [d|];
    cbn -[text app hash_Write]; [|reflexivity].
  f_equal. rewrite !transcript_Write, app_nil_l.
  now rewrite !hash_Write_app.
Qed.

End written_bytes.

(** ** Properties of the constant operators *)

Section properties.
Context `{VC : ValueCaps}.

(** C1 (constant round-trip): [Do] with no arguments on the scalar constant
    wrapping [v] returns [v] and the nil error; [Do] with no arguments on the
    tensor constant wrapping [T] returns [T] and the nil error. *)
Theorem constant_round_trip :
  (forall v : Scalar,
     constantScalar.Do (mkConstantScalar v) [] = (ScalarValue v, None)) /\
  (forall T : Tensor,
     constantTensor.Do (mkConstantTensor T) [] = (TensorValue T, None)).
Proof. split; reflexivity. Qed.

(** C2 (constant non-differentiability): for both constants and every input
    count, [DiffWRT] answers the nil slice, which marks no index as
    differentiable; for all inputs, output node and gradient node, [SymDiff]
    answers the nil gradient list (length 0, a gradient for no index) and the
    nil error; the two answers are consistent index by index. *)
Theorem constants_not_differentiable :
  (forall (c : constantScalar) (n : Z) (inputs : Nodes) (out grad : Node),
     constantScalar.DiffWRT c n = slice_nil /\
     (forall i, marked (constantScalar.DiffWRT c n) i = false) /\
     constantScalar.SymDiff c inputs out grad = (slice_nil, None) /\
     len (fst (constantScalar.SymDiff c inputs out grad)) = 0 /\
     (forall i, has_gradient (fst (constantScalar.SymDiff c inputs out grad)) i = false) /\
     diff_consistent (constantScalar.DiffWRT c n)
                     (fst (constantScalar.SymDiff c inputs out grad)) = true) /\
  (forall (c : constantTensor) (n : Z) (inputs : Nodes) (out grad : Node),
     constantTensor.DiffWRT c n = slice_nil /\
     (forall i, marked (constantTensor.DiffWRT c n) i = false) /\
     constantTensor.SymDiff c inputs out grad = (slice_nil, None) /\
     len (fst (constantTensor.SymDiff c inputs out grad)) = 0 /\
     (forall i, has_gradient (fst (constantTensor.SymDiff c inputs out grad)) i = false) /\
     diff_consistent (constantTensor.DiffWRT c n)
                     (fst (constantTensor.SymDiff c inputs out grad)) = true).
Proof.
  split; intros c n inputs out grad; repeat split; intros i;
    unfold marked, has_gradient, at_index; simpl;
    rewrite ?lookup_nil; try reflexivity;
    apply bool_decide_eq_false; intros [x Hx]; discriminate.
Qed.

(** Mutating a tensor through one handle is observed through every handle of
    the same address. *)
Lemma Tensor_mutate_observed (f : TensorData -> TensorData)
  (st : gmap loc TensorData) (t1 t2 : Tensor) :
  Tensor_ptr t1 = Tensor_ptr t2 ->
  Tensor_deref (Tensor_mutate f st t1) t2 = f <$> Tensor_deref st t2.
Proof.
  intros Hp. unfold Tensor_deref, Tensor_mutate. rewrite Hp, lookup_alter_eq.
  destruct (st !! Tensor_ptr t2); reflexivity.
Qed.

(** A mutation leaves the tensors at other addresses alone. *)
Lemma Tensor_mutate_other (f : TensorData -> TensorData)
  (st : gmap loc TensorData) (t1 t2 : Tensor) :
  Tensor_ptr t1 <> Tensor_ptr t2 ->
  Tensor_deref (Tensor_mutate f st t1) t2 = Tensor_deref st t2.
Proof.
  intros Hp. unfold Tensor_deref, Tensor_mutate.
  now rewrite lookup_alter_ne.
Qed.

(** C3 (aliasing contract): the tensor constant reports [returnsPtr() = true],
    and any two calls of its [Do] return the wrapped tensor handle itself: the
    two results have the same address, so a mutation made through the first
    result is read back through the second.  The scalar constant reports
    [returnsPtr() = false]. *)
Theorem constantTensor_Do_aliases :
  (forall c : constantTensor, constantTensor.returnsPtr c = true) /\
  (forall (c : constantTensor) (args1 args2 : list Value),
     exists t1 t2 : Tensor,
       constantTensor.Do c args1 = (TensorValue t1, None) /\
       constantTensor.Do c args2 = (TensorValue t2, None) /\
       t1 = constantTensor_v c /\ t2 = constantTensor_v c /\
       Tensor_ptr t1 = Tensor_ptr t2 /\
       forall (f : TensorData -> TensorData) (st : gmap loc TensorData),
         Tensor_deref (Tensor_mutate f st t1) t2 = f <$> Tensor_deref st t2) /\
  (forall c : constantScalar, constantScalar.returnsPtr c = false).
Proof.
  split; [reflexivity|]. split; [|reflexivity].
  intros c args1 args2. exists (constantTensor_v c), (constantTensor_v c).
  repeat split. intros f st. now apply Tensor_mutate_observed.
Qed.

(** C4, as the code has it (no arity enforcement): [Do] on either constant
    performs no arity check.  For every argument list, empty or not, it
    returns the wrapped value and the nil error; the arguments are ignored
    and no ArityMismatch is ever returned. *)
Theorem constant_Do_ignores_arguments :
  (forall (c : constantScalar) (args : list Value),
     constantScalar.Do c args = (ScalarValue (constantScalar_v c), None) /\
     constantScalar.Do c args = constantScalar.Do c []) /\
  (forall (c : constantTensor) (args : list Value),
     constantTensor.Do c args = (TensorValue (constantTensor_v c), None) /\
     constantTensor.Do c args = constantTensor.Do c []).
Proof. split; intros c args; split; reflexivity. Qed.

(** C6, as the code has it: for every [inputCount], [DiffWRT] of either
    constant is the nil slice, of length 0; its length equals [inputCount]
    exactly when [inputCount] is 0. *)
Theorem constant_DiffWRT_nil :
  (forall (c : constantScalar) (inputCount : Z),
     constantScalar.DiffWRT c inputCount = slice_nil /\
     len (constantScalar.DiffWRT c inputCount) = 0 /\
     (len (constantScalar.DiffWRT c inputCount) =? inputCount) = (inputCount =? 0)) /\
  (forall (c : constantTensor) (inputCount : Z),
     constantTensor.DiffWRT c inputCount = slice_nil /\
     len (constantTensor.DiffWRT c inputCount) = 0 /\
     (len (constantTensor.DiffWRT c inputCount) =? inputCount) = (inputCount =? 0)).
Proof.
  split; intros c inputCount; repeat split;
    change (len (A:=bool) slice_nil) with 0; apply Z.eqb_sym.
Qed.

(** C7 (constant shape inference): for every type hint and every list of
    input nodes, [inferShape] of the scalar constant returns the scalar shape,
    which has 0 dimensions, and the nil error; [inferShape] of a tensor
    constant whose tensor is in the store returns that tensor's own shape and
    the nil error; neither result depends on the hint or on the nodes. *)
Theorem constant_inferShape :
  (forall (c : constantScalar) (hint : GType) (inputs : list Node),
     constantScalar.inferShape c hint inputs = (ScalarShape, None)) /\
  Dims ScalarShape = 0 /\
  (forall (st : gmap loc TensorData) (c : constantTensor) (d : TensorData)
          (hint : GType) (inputs : list Node),
     st !! Tensor_ptr (constantTensor_v c) = Some d ->
     constantTensor.inferShape st c hint inputs = Returns (TensorData_Shape d, None)) /\
  (forall (c : constantScalar) (hint hint' : GType) (inputs inputs' : list Node),
     constantScalar.inferShape c hint inputs = constantScalar.inferShape c hint' inputs') /\
  (forall (st : gmap loc TensorData) (c : constantTensor) (hint hint' : GType)
          (inputs inputs' : list Node),
     constantTensor.inferShape st c hint inputs
     = constantTensor.inferShape st c hint' inputs').
Proof.
  repeat split.
  intros st c d hint inputs Hd.
  unfold constantTensor.inferShape, Tensor_Shape, Tensor_deref.
  now rewrite Hd.
Qed.

(** C9 (analysis flags): whatever value is wrapped, both constants answer -1,
    the no-overwrite sentinel, to [overwriteInput()] and false to
    [callsExtern()]. *)
Theorem constant_analysis_flags :
  (forall c : constantScalar,
     constantScalar.overwriteInput c = -1 /\ constantScalar.callsExtern c = false) /\
  (forall c : constantTensor,
     constantTensor.overwriteInput c = -1 /\ constantTensor.callsExtern c = false).
Proof. split; intros c; split; reflexivity. Qed.

(** C10 (accessor agreement): for both constants [isconstant()] is true and
    [Value()] is the wrapped value, the very value [Do] returns when called
    with no arguments. *)
Theorem constant_Value_agrees_with_Do :
  (forall c : constantScalar,
     constantScalar.isconstant c = true /\
     constantScalar.Value c = ScalarValue (constantScalar_v c) /\
     constantScalar.Do c [] = (constantScalar.Value c, None)) /\
  (forall c : constantTensor,
     constantTensor.isconstant c = true /\
     constantTensor.Value c = TensorValue (constantTensor_v c) /\
     constantTensor.Do c [] = (constantTensor.Value c, None)).
Proof. split; intros c; repeat split. Qed.

(** *** Hash codes *)

(** A hash code is the FNV-1a hash of the bytes [WriteHash] writes. *)
Lemma constantScalar_Hashcode_transcript (c : constantScalar) :
  constantScalar.Hashcode c
  = fnv1a32 <$> constantScalar.WriteHash (H:=transcript) c [].
Proof.
  unfold constantScalar.Hashcode.
  rewrite (constantScalar_WriteHash_transcript c fnv.New32a).
  destruct (constantScalar.WriteHash (H:=transcript) c []); reflexivity.
Qed.

Lemma constantTensor_Hashcode_transcript (st : gmap loc TensorData)
  (c : constantTensor) :
  constantTensor.Hashcode st c
  = fnv1a32 <$> constantTensor.WriteHash (H:=transcript) st c [].
Proof.
  unfold constantTensor.Hashcode.
  rewrite (constantTensor_WriteHash_transcript st c fnv.New32a).
  destruct (constantTensor.WriteHash (H:=transcript) st c []); reflexivity.
Qed.

(** The bytes a scalar constant writes: the tag, the encoding of the element
    type, and the rendering of the value. *)
Lemma constantScalar_written (c : constantScalar) (enc : list byte) :
  Dtype_encode (Scalar_t (constantScalar_v c)) = Some enc ->
  constantScalar.WriteHash (H:=transcript) c []
  = Returns (text "const " ++ enc ++ text "of " ++ Scalar_format (constantScalar_v c)).
Proof.
  intros He. unfold constantScalar.WriteHash, binary_Write, Fprintf.
  rewrite He. cbn -[text app hash_Write].
  rewrite !transcript_Write, app_nil_l. now rewrite <- app_assoc.
Qed.

(** When the element type has no encoding, [WriteHash] panics. *)
Lemma constantScalar_WriteHash_panics {H : Type} `{HH : Hash H}
  (c : constantScalar) (h : H) :
  Dtype_encode (Scalar_t (constantScalar_v c)) = None ->
  constantScalar.WriteHash c h = Panics.
Proof.
  intros He. unfold constantScalar.WriteHash, binary_Write. now rewrite He.
Qed.

(** The bytes a tensor constant writes: the tag, the rendering of the type,
    and the rendering of the tensor. *)
Lemma constantTensor_written (st : gmap loc TensorData) (c : constantTensor)
  (d : TensorData) :
  st !! Tensor_ptr (constantTensor_v c) = Some d ->
  constantTensor.WriteHash (H:=transcript) st c []
  = Returns ((text "const " ++ GType_format (TensorData_Type d)) ++ TensorData_format d).
Proof.
  intros Hd.
  unfold constantTensor.WriteHash, constantTensor.Type', Tensor_Type,
    Tensor_format, Tensor_deref, Fprintf.
  rewrite Hd. cbn -[text app hash_Write].
  now rewrite !transcript_Write, app_nil_l.
Qed.






(** C8 ([Hashcode] wraps [WriteHash]): for both constants [Hashcode()] is
    what the specification describes, the sum of a fresh 32-bit FNV-1a digest
    after [WriteHash] has run on it; it is therefore the FNV-1a hash of the
    byte sequence [WriteHash] writes, and operators whose [WriteHash] writes
    identical byte sequences return equal codes. *)
Theorem Hashcode_wraps_WriteHash :
  (forall c : constantScalar,
     constantScalar.Hashcode c = Hashcode_spec (constantScalar.WriteHash c)) /\
  (forall (st : gmap loc TensorData) (c : constantTensor),
     constantTensor.Hashcode st c = Hashcode_spec (constantTensor.WriteHash st c)) /\
  (forall c : constantScalar,
     constantScalar.Hashcode c
     = fnv1a32 <$> constantScalar.WriteHash (H:=transcript) c []) /\
  (forall (st : gmap loc TensorData) (c : constantTensor),
     constantTensor.Hashcode st c
     = fnv1a32 <$> constantTensor.WriteHash (H:=transcript) st c []) /\
  (forall c1 c2 : constantScalar,
     constantScalar.WriteHash (H:=transcript) c1 []
     = constantScalar.WriteHash (H:=transcript) c2 [] ->
     constantScalar.Hashcode c1 = constantScalar.Hashcode c2) /\
  (forall (st1 st2 : gmap loc TensorData) (c1 c2 : constantTensor),
     constantTensor.WriteHash (H:=transcript) st1 c1 []
     = constantTensor.WriteHash (H:=transcript) st2 c2 [] ->
     constantTensor.Hashcode st1 c1 = constantTensor.Hashcode st2 c2) /\
  (forall (st : gmap loc TensorData) (c1 : constantScalar) (c2 : constantTensor),
     constantScalar.WriteHash (H:=transcript) c1 []
     = constantTensor.WriteHash (H:=transcript) st c2 [] ->
     constantScalar.Hashcode c1 = constantTensor.Hashcode st c2).
Proof.
  split.
  { intros c. unfold constantScalar.Hashcode, Hashcode_spec.
    destruct (constantScalar.WriteHash c fnv.New32a); reflexivity. }
  split.
  { intros st c. unfold constantTensor.Hashcode, Hashcode_spec.
    destruct (constantTensor.WriteHash st c fnv.New32a); reflexivity. }
  split; [exact constantScalar_Hashcode_transcript|].
  split; [exact constantTensor_Hashcode_transcript|].
  split; [|split].
  - intros c1 c2 Hw. rewrite !constantScalar_Hashcode_transcript. now rewrite Hw.
  - intros st1 st2 c1 c2 Hw. rewrite !constantTensor_Hashcode_transcript.
    now rewrite Hw.
  - intros st c1 c2 Hw. rewrite constantScalar_Hashcode_transcript,
      constantTensor_Hashcode_transcript. now rewrite Hw.
Qed.

End properties.

(** ** The operators on the concrete capability set *)

Example const_five_written :
  constantScalar.WriteHash (H:=transcript) const_five []
  = Returns (text "const " ++ [x00] ++ text "of 5").
Proof. reflexivity. Qed.

Example const_five_Hashcode :
  constantScalar.Hashcode const_five = Returns 2425657598.
Proof. vm_compute. reflexivity. Qed.

Example const_matrix_Hashcode :
  constantTensor.Hashcode (VC:=plainCaps) one_tensor const_matrix = Returns 1976285804 /\
  constantTensor.Hashcode (VC:=plainCaps) other_tensor other_matrix = Returns 1976285804.
Proof. split; vm_compute; reflexivity. Qed.

(** A tensor constant whose handle designates nothing cannot be hashed. *)
Example dangling_Hashcode :
  constantTensor.Hashcode (VC:=plainCaps) ∅ const_matrix = Panics.
Proof. reflexivity. Qed.

(** C4, against the claim as stated: called with one argument, [Do] of the
    scalar constant and of the tensor constant return the wrapped value with
    the nil error, not an ArityMismatch. *)
Lemma constant_Do_no_ArityMismatch :
  constantScalar.Do const_five [ScalarValue five] = (ScalarValue five, None) /\
  snd (constantScalar.Do const_five [ScalarValue five]) <> Some ArityMismatch /\
  snd (constantTensor.Do (VC:=plainCaps) const_matrix [ScalarValue five])
    <> Some ArityMismatch.
Proof. split; [reflexivity|]. split; discriminate. Qed.


(** C6, against the claim as stated: asked about two inputs, [DiffWRT] of
    either constant answers a sequence of length 0, not 2. *)
Lemma constant_DiffWRT_length_not_inputCount :
  len (constantScalar.DiffWRT const_five 2) <> 2 /\
  len (constantTensor.DiffWRT const_matrix 2) <> 2.
Proof. split; discriminate. Qed.


(** [constant_inferShape] at the 2x2 matrix of the one-tensor store. *)
Lemma constant_inferShape_witness :
  one_tensor !! Tensor_ptr (constantTensor_v const_matrix) = Some matrix /\
  constantTensor.inferShape (VC:=plainCaps) one_tensor const_matrix (text "hint") [7%nat]
  = Returns ([2; 2], None).
Proof.
  split; [reflexivity|].
  destruct (@constant_inferShape plainCaps) as (_ & _ & Htensor & _).
  apply (Htensor one_tensor const_matrix matrix); reflexivity.
Defined.

(** [Hashcode_wraps_WriteHash] at two tensor constants that write the same
    bytes from different addresses, and at the scalar 5. *)
Lemma Hashcode_wraps_WriteHash_witness :
  (constantTensor.WriteHash (VC:=plainCaps) (H:=transcript) one_tensor const_matrix []
   = constantTensor.WriteHash (VC:=plainCaps) (H:=transcript) other_tensor other_matrix []) /\
  constantTensor.Hashcode (VC:=plainCaps) one_tensor const_matrix
  = constantTensor.Hashcode (VC:=plainCaps) other_tensor other_matrix /\
  constantScalar.Hashcode const_five = constantScalar.Hashcode const_five.
Proof.
  destruct (@Hashcode_wraps_WriteHash plainCaps) as (_ & _ & _ & _ & Hs & Ht & _).
  split; [reflexivity|]. split.
  - apply (Ht one_tensor other_tensor const_matrix other_matrix); reflexivity.
  - apply (Hs const_five const_five); reflexivity.
Defined.

#[global] Instance Returns_inj (A : Type) : Inj (=) (=) (@Returns A).
Proof. intros a b E. now injection E. Qed.

(** ** Further properties: streaming, the store, the written bytes *)

Section hashing_into_any_digest.
Context `{VC : ValueCaps}.
Context {H : Type} `{HL : HashLaws H}.

(** [WriteHash] streams: into any lawful digest, in any state, a constant
    writes exactly the bytes it writes into a recording digest, and writing a
    scalar constant and then a tensor constant into one digest is writing the
    two byte sequences one after the other. *)
Theorem WriteHash_streams (st : gmap loc TensorData) (c1 : constantScalar)
  (c2 : constantTensor) (h : H) :
  constantScalar.WriteHash c1 h
  = hash_Write h <$> constantScalar.WriteHash (H:=transcript) c1 [] /\
  constantTensor.WriteHash st c2 h
  = hash_Write h <$> constantTensor.WriteHash (H:=transcript) st c2 [] /\
  (constantScalar.WriteHash c1 h ≫= constantTensor.WriteHash st c2)
  = (t1 ← constantScalar.WriteHash (H:=transcript) c1 [];
     t2 ← constantTensor.WriteHash (H:=transcript) st c2 [];
     mret (hash_Write h (t1 ++ t2))).
Proof.
  split; [apply constantScalar_WriteHash_transcript|].
  split; [apply constantTensor_WriteHash_transcript|].
  rewrite (constantScalar_WriteHash_transcript c1 h).
  destruct (constantScalar.WriteHash (H:=transcript) c1 []) as [t1|];
    [|reflexivity].
  cbn [fmap outcome_fmap mbind outcome_bind].
  rewrite (constantTensor_WriteHash_transcript st c2 (hash_Write h t1)).
  destruct (constantTensor.WriteHash (H:=transcript) st c2 []) as [t2|];
    [|reflexivity].
  cbn [fmap outcome_fmap mbind outcome_bind mret outcome_ret].
  now rewrite hash_Write_app.
Qed.

End hashing_into_any_digest.

Section more_properties.
Context `{VC : ValueCaps}.

(** A hash code fits [uint32]: whenever [Hashcode] returns, the code lies in
    [0, 2^32). *)
Theorem Hashcode_fits_uint32 :
  (forall (c : constantScalar) (code : Z),
     constantScalar.Hashcode c = Returns code -> 0 <= code < 2 ^ 32) /\
  (forall (st : gmap loc TensorData) (c : constantTensor) (code : Z),
     constantTensor.Hashcode st c = Returns code -> 0 <= code < 2 ^ 32).
Proof.
  split.
  - intros c code. rewrite constantScalar_Hashcode_transcript.
    destruct (constantScalar.WriteHash (H:=transcript) c []) as [t|];
      [|discriminate].
    intros [= <-]. apply fnv1a32_range.
  - intros st c code. rewrite constantTensor_Hashcode_transcript.
    destruct (constantTensor.WriteHash (H:=transcript) st c []) as [t|];
      [|discriminate].
    intros [= <-]. apply fnv1a32_range.
Qed.

(** What a tensor constant reads from a store in which its tensor is [d]. *)
Lemma constantTensor_reads (st : gmap loc TensorData) (c : constantTensor)
  (d : TensorData) (hint : GType) (inputs : list Node) :
  st !! Tensor_ptr (constantTensor_v c) = Some d ->
  constantTensor.Type' st c = Returns (TensorData_Type d) /\
  constantTensor.inferShape st c hint inputs = Returns (TensorData_Shape d, None) /\
  constantTensor.Hashcode st c
  = Returns (fnv1a32 ((text "const " ++ GType_format (TensorData_Type d))
                      ++ TensorData_format d)).
Proof.
  intros Hd. repeat split.
  - unfold constantTensor.Type', Tensor_Type, Tensor_deref. now rewrite Hd.
  - unfold constantTensor.inferShape, Tensor_Shape, Tensor_deref. now rewrite Hd.
  - rewrite constantTensor_Hashcode_transcript.
    now rewrite (constantTensor_written st c d Hd).
Qed.

(** The tensor constant does not capture its tensor: after an in-place update
    [f] made through the value [Do] returned, the constant's [Type],
    [inferShape] and [Hashcode] are those of the updated tensor. *)
Theorem constantTensor_reads_follow_mutation (st : gmap loc TensorData)
  (c : constantTensor) (d : TensorData) (f : TensorData -> TensorData)
  (args : list Value) (t : Tensor) (hint : GType) (inputs : list Node) :
  st !! Tensor_ptr (constantTensor_v c) = Some d ->
  as_Tensor (fst (constantTensor.Do c args)) = Some t ->
  constantTensor.Type' (Tensor_mutate f st t) c = Returns (TensorData_Type (f d)) /\
  constantTensor.inferShape (Tensor_mutate f st t) c hint inputs
  = Returns (TensorData_Shape (f d), None) /\
  constantTensor.Hashcode (Tensor_mutate f st t) c
  = Returns (fnv1a32 ((text "const " ++ GType_format (TensorData_Type (f d)))
                      ++ TensorData_format (f d))).
Proof.
  intros Hd [= <-]. apply constantTensor_reads.
  unfold Tensor_mutate. now rewrite lookup_alter_eq, Hd.
Qed.

(** An in-place update of a tensor at another address changes nothing of what
    the constant reports: [Type], [inferShape], [WriteHash] into any digest
    and [Hashcode] are as before. *)
Theorem constantTensor_reads_framed (st : gmap loc TensorData)
  (c : constantTensor) (f : TensorData -> TensorData) (t : Tensor)
  (hint : GType) (inputs : list Node) (H : Type) (HH : Hash H) (h : H) :
  Tensor_ptr t <> Tensor_ptr (constantTensor_v c) ->
  constantTensor.Type' (Tensor_mutate f st t) c = constantTensor.Type' st c /\
  constantTensor.inferShape (Tensor_mutate f st t) c hint inputs
  = constantTensor.inferShape st c hint inputs /\
  constantTensor.WriteHash (Tensor_mutate f st t) c h = constantTensor.WriteHash st c h /\
  constantTensor.Hashcode (Tensor_mutate f st t) c = constantTensor.Hashcode st c.
Proof.
  intros Hne.
  pose proof (Tensor_mutate_other f st t (constantTensor_v c) Hne) as Hsame.
  unfold constantTensor.Hashcode, constantTensor.WriteHash,
    constantTensor.inferShape, constantTensor.Type',
    Tensor_Type, Tensor_Shape, Tensor_format.
  rewrite !Hsame. repeat split.
Qed.

(** The bytes a tensor constant writes carry no mark between the rendering of
    the type and the rendering of the tensor: two tensor constants write the
    same bytes exactly when the two renderings concatenate to the same bytes,
    and they then return the same code, whatever the types and contents. *)
Theorem constantTensor_hash_of_concatenation (st1 st2 : gmap loc TensorData)
  (c1 c2 : constantTensor) (d1 d2 : TensorData) :
  st1 !! Tensor_ptr (constantTensor_v c1) = Some d1 ->
  st2 !! Tensor_ptr (constantTensor_v c2) = Some d2 ->
  (constantTensor.WriteHash (H:=transcript) st1 c1 []
   = constantTensor.WriteHash (H:=transcript) st2 c2 []
   <-> GType_format (TensorData_Type d1) ++ TensorData_format d1
       = GType_format (TensorData_Type d2) ++ TensorData_format d2) /\
  (GType_format (TensorData_Type d1) ++ TensorData_format d1
   = GType_format (TensorData_Type d2) ++ TensorData_format d2 ->
   constantTensor.Hashcode st1 c1 = constantTensor.Hashcode st2 c2).
Proof.
  intros H1 H2.
  assert (Hiff : constantTensor.WriteHash (H:=transcript) st1 c1 []
                 = constantTensor.WriteHash (H:=transcript) st2 c2 []
                 <-> GType_format (TensorData_Type d1) ++ TensorData_format d1
                     = GType_format (TensorData_Type d2) ++ TensorData_format d2).
  { rewrite (constantTensor_written st1 c1 d1 H1),
      (constantTensor_written st2 c2 d2 H2), <- !app_assoc.
    split.
    - intros E. apply (inj Returns) in E. exact (app_inv_head _ _ _ E).
    - intros E. now rewrite E. }
  split; [exact Hiff|].
  intros E. rewrite !constantTensor_Hashcode_transcript.
  now rewrite (proj2 Hiff E).
Qed.

(** The bytes a scalar constant writes are unambiguous: between two scalar
    constants whose element types have encodings of one length, the written
    bytes are equal exactly when the type encodings are equal and the
    renderings are equal. *)
Theorem constantScalar_written_unambiguous (c1 c2 : constantScalar)
  (e1 e2 : list byte) :
  Dtype_encode (Scalar_t (constantScalar_v c1)) = Some e1 ->
  Dtype_encode (Scalar_t (constantScalar_v c2)) = Some e2 ->
  length e1 = length e2 ->
  (constantScalar.WriteHash (H:=transcript) c1 []
   = constantScalar.WriteHash (H:=transcript) c2 []
   <-> e1 = e2 /\
       Scalar_format (constantScalar_v c1) = Scalar_format (constantScalar_v c2)).
Proof.
  intros E1 E2 Hlen.
  rewrite (constantScalar_written c1 e1 E1), (constantScalar_written c2 e2 E2).
  split.
  - intros E. apply (inj Returns) in E. apply app_inv_head in E.
    apply app_inj_1 in E; [|exact Hlen]. destruct E as [Ee E].
    apply app_inv_head in E. now split.
  - intros [-> ->]. reflexivity.
Qed.

End more_properties.

(** ** The further properties on the concrete capability set *)

(** A scalar constant whose element type has no encoding cannot be hashed. *)
Example untagged_five_Hashcode :
  constantScalar.Hashcode untagged_five = Panics /\
  constantScalar.WriteHash (H:=transcript) untagged_five [] = Panics.
Proof. split; reflexivity. Qed.

(** [WriteHash_streams] at the FNV-1a digest, the scalar 5 and the matrix. *)
Lemma WriteHash_streams_witness :
  (constantScalar.WriteHash const_five fnv.New32a
   ≫= constantTensor.WriteHash (VC:=plainCaps) one_tensor const_matrix)
  = Returns (fnv.Write fnv.New32a
               ((text "const " ++ [x00] ++ text "of 5")
                ++ (text "const Matrix float64" ++ text "[1 2; 3 4]"))).
Proof.
  destruct (WriteHash_streams (VC:=plainCaps) (H:=fnv.sum32a)
              one_tensor const_five const_matrix fnv.New32a) as (_ & _ & Hseq).
  rewrite Hseq. reflexivity.
Defined.

(** [Hashcode_fits_uint32] at the scalar 5 and at the matrix. *)
Lemma Hashcode_fits_uint32_witness :
  (constantScalar.Hashcode const_five = Returns 2425657598 /\
   0 <= 2425657598 < 2 ^ 32) /\
  (constantTensor.Hashcode (VC:=plainCaps) one_tensor const_matrix = Returns 1976285804 /\
   0 <= 1976285804 < 2 ^ 32).
Proof.
  destruct (@Hashcode_fits_uint32 plainCaps) as (Hs & Ht).
  assert (E5 : constantScalar.Hashcode const_five = Returns 2425657598)
    by (vm_compute; reflexivity).
  assert (Em : constantTensor.Hashcode (VC:=plainCaps) one_tensor const_matrix
               = Returns 1976285804) by (vm_compute; reflexivity).
  split; (split; [assumption|]).
  - exact (Hs const_five 2425657598 E5).
  - exact (Ht one_tensor const_matrix 1976285804 Em).
Defined.

(** [constantTensor_reads_follow_mutation] at the matrix, flattened in place
    through the value [Do] returned. *)
Lemma constantTensor_reads_follow_mutation_witness :
  constantTensor.Type' (VC:=plainCaps)
    (Tensor_mutate (VC:=plainCaps) flatten one_tensor (mkTensor 1%positive)) const_matrix
  = Returns (text "Vector float64") /\
  constantTensor.inferShape (VC:=plainCaps)
    (Tensor_mutate (VC:=plainCaps) flatten one_tensor (mkTensor 1%positive)) const_matrix
    (text "hint") []
  = Returns ([4], None) /\
  constantTensor.Hashcode (VC:=plainCaps)
    (Tensor_mutate (VC:=plainCaps) flatten one_tensor (mkTensor 1%positive)) const_matrix
  = Returns (fnv1a32 (text "const Vector float64[1 2; 3 4]")).
Proof.
  exact (constantTensor_reads_follow_mutation (VC:=plainCaps)
           one_tensor const_matrix matrix flatten [] (mkTensor 1%positive)
           (text "hint") [] eq_refl eq_refl).
Defined.

(** [constantTensor_reads_framed] at the store of two tensors: flattening the
    vector at address 2 leaves the constant of the matrix at address 1 alone. *)
Lemma constantTensor_reads_framed_witness :
  constantTensor.Type' (VC:=plainCaps)
    (Tensor_mutate (VC:=plainCaps) flatten two_tensors (mkTensor 2%positive)) const_matrix
  = constantTensor.Type' (VC:=plainCaps) two_tensors const_matrix /\
  constantTensor.Hashcode (VC:=plainCaps)
    (Tensor_mutate (VC:=plainCaps) flatten two_tensors (mkTensor 2%positive)) const_matrix
  = constantTensor.Hashcode (VC:=plainCaps) two_tensors const_matrix.
Proof.
  destruct (constantTensor_reads_framed (VC:=plainCaps) two_tensors const_matrix
              flatten (mkTensor 2%positive) (text "hint") []
              fnv.sum32a fnv_Hash fnv.New32a)
    as (Hty & _ & _ & Hcode); [discriminate|].
  split; assumption.
Defined.

(** [constantTensor_hash_of_concatenation] at two tensors of different type,
    shape and content: they return the same code. *)
Lemma constantTensor_hash_of_concatenation_witness :
  plain_type tensor_AB_C <> plain_type tensor_A_BC /\
  plain_repr tensor_AB_C <> plain_repr tensor_A_BC /\
  constantTensor.Hashcode (VC:=plainCaps) store_AB_C const_matrix
  = constantTensor.Hashcode (VC:=plainCaps) store_A_BC const_matrix.
Proof.
  split; [discriminate|]. split; [discriminate|].
  destruct (constantTensor_hash_of_concatenation (VC:=plainCaps)
              store_AB_C store_A_BC const_matrix const_matrix
              tensor_AB_C tensor_A_BC eq_refl eq_refl) as (_ & Hcode).
  apply Hcode. reflexivity.
Defined.

(** [constantScalar_written_unambiguous] at the scalars 5 and 6. *)
Lemma constantScalar_written_unambiguous_witness :
  constantScalar.WriteHash (H:=transcript) const_five []
  = constantScalar.WriteHash (H:=transcript) (mkConstantScalar six) []
  <-> [x00] = [x00] /\ text "5" = text "6".
Proof.
  exact (constantScalar_written_unambiguous (VC:=plainCaps)
           const_five (mkConstantScalar six) [x00] [x00] eq_refl eq_refl eq_refl).
Defined.
